(** * The capture-to-analysis bridge

    A shallow embedding of the two source files of the repository:

    - [pages/api/reconstruct.ts], the request handler that turns a multipart
      upload into one run of the external analysis engine ([Module
      Reconstruct]);
    - the page component [Home], the capture client with its React state
      ([Module Home]).

    Both files are event driven.  The handler registers listeners on a child
    process and answers from the ['close'] listener; the page reacts to
    clicks and to the settling of promises.  The embedding therefore reads
    each file as a function from what the environment delivers (the parsed
    form, the events of the child process, the result of [fetch]) to the
    effects the code performs. *)

From Stdlib Require Import String Ascii List ZArith Bool Lia DecimalString.
Import ListNotations.
Open Scope string_scope.

(** ** JavaScript values *)

(** The values [JSON.parse] produces.  Properties of an object are kept in
    insertion order, each key once. *)
#[warnings="-register-all"]
Inductive json (number : Type) : Type :=
| JNull
| JBool (b : bool)
| JNum (n : number)
| JStr (s : string)
| JArr (items : list (json number))
| JObj (props : list (string * json number)).

Arguments JNull {number}.
Arguments JBool {number} b.
Arguments JNum {number} n.
Arguments JStr {number} s.
Arguments JArr {number} items.
Arguments JObj {number} props.

(** A thrown value, as the [catch] clauses of the source look at it: only
    [e?.message] is read.  [None] stands for a thrown value without a
    [message] (a string passed to [reject], [null], [undefined]). *)
Record thrown := Thrown { message : option string }.

(** [new Error(msg)] *)
Definition Error (msg : string) : thrown := Thrown (Some msg).

(** The outcome of evaluating an expression or awaiting a promise. *)
Inductive completion (A : Type) : Type :=
| Normal (a : A)
| Throw (e : thrown).

Arguments Normal {A} a.
Arguments Throw {A} e.

(** What the code takes from the JavaScript platform.  Numbers are IEEE
    doubles; the code only tests them for truthiness and interpolates them
    into a template literal, so both operations are kept abstract, as is
    [JSON.parse] itself. *)
Class Platform := {
  number : Type;
  number_truthy : number -> bool;
  number_to_string : number -> string;
  JSON_parse : string -> completion (json number);
  (** [path.join(process.cwd(), 'api', 'reconstruct.py')] *)
  script_path : string
}.

Definition value `{Platform} : Type := json number.

(** [e?.message || fallback]: the empty string is falsy. *)
Definition message_or (e : thrown) (fallback : string) : string :=
  match message e with
  | Some "" => fallback
  | Some m => m
  | None => fallback
  end.

(** Property read [v?.key] for a key that is not a built-in property of
    strings, arrays or [Object.prototype]; [None] is [undefined]. *)
Fixpoint assoc {A : Type} (key : string) (props : list (string * A)) : option A :=
  match props with
  | [] => None
  | (k, v) :: rest => if String.eqb k key then Some v else assoc key rest
  end.

Definition get `{Platform} (v : value) (key : string) : option value :=
  match v with
  | JObj props => assoc key props
  | _ => None
  end.

(** ToBoolean *)
Definition truthy `{Platform} (v : option value) : bool :=
  match v with
  | None => false
  | Some JNull => false
  | Some (JBool b) => b
  | Some (JNum n) => number_truthy n
  | Some (JStr s) => negb (String.eqb s "")
  | Some (JArr _) => true
  | Some (JObj _) => true
  end.

(** ToString, as a template literal applies it.  Inside [Array.prototype.join]
    a [null] element prints as the empty string. *)
Fixpoint to_string `{Platform} (v : value) : string :=
  match v with
  | JNull => "null"
  | JBool b => if b then "true" else "false"
  | JNum n => number_to_string n
  | JStr s => s
  | JArr items =>
      (fix join (l : list value) : string :=
         match l with
         | [] => ""
         | x :: l' =>
             let here := match x with JNull => "" | _ => to_string x end in
             match l' with
             | [] => here
             | _ => here ++ "," ++ join l'
             end
         end) items
  | JObj _ => "[object Object]"
  end.

(** Decimal rendering of an integer, for [`${res.status}`]. *)
Definition decimal (z : Z) : string := NilZero.string_of_int (Z.to_int z).

(** ** The request handler, [pages/api/reconstruct.ts] *)

Module Reconstruct.

(** The effects a handler of this kind has on the outside world: starting
    a process, removing a file ([fs.unlink]; the module imports [fs]),
    answering the request. *)
Inductive effect `{Platform} : Type :=
| Spawn (command : string) (args : list string)
| Unlink (path : string)
| Respond (status : Z) (body : value).

(** [formidable.File], of which only [filepath] is read. *)
Record File := { filepath : string }.

(** What [form.parse] hands to its callback: [err] and [files.image]
    ([fields] is not read). *)
Record form := { form_err : option thrown; files_image : option File }.

Record request := { method : string; body : form }.

(** Lines 13-23.  The promise resolves with the path of the stored upload
    or rejects. *)
Definition parseForm (req : request) : completion string :=
  match form_err (body req) with
  | Some e => Throw e
  | None =>
      match files_image (body req) with
      | None => Throw (Error "image missing")
      | Some file => Normal (filepath file)
      end
  end.

(** Events of the child process and of its two output streams. *)
Inductive child_event :=
| StdoutData (d : string)
| StderrData (d : string)
| Exit (code : option Z)
| Close (code : option Z)
| ErrorEvent (e : thrown).

(** [let out = ''; let err = '';] *)
Record buffers := { out : string; err : string }.

Definition error_body `{Platform} (msg : string) : value :=
  JObj [("error", JStr msg)].

Definition failure_body `{Platform} (msg details : string) : value :=
  JObj [("error", JStr msg); ("details", JStr details)].

(** [code !== 0]; a process killed by a signal closes with [null]. *)
Definition code_is_zero (code : option Z) : bool :=
  match code with
  | Some c => Z.eqb c 0
  | None => false
  end.

(** Lines 39-49, the ['close'] listener. *)
Definition on_close `{Platform} (b : buffers) (code : option Z) : list effect :=
  if negb (code_is_zero code) then
    [Respond 500 (failure_body "Python failed" (err b))]
  else
    match JSON_parse (out b) with
    | Normal parsed => [Respond 200 parsed]
    | Throw _ => [Respond 500 (failure_body "Invalid JSON from Python" (out b))]
    end.

(** The listeners the handler registers (lines 36, 37 and 39); [None] where
    it registers none. *)
Definition listener `{Platform} (ev : child_event) (b : buffers)
  : option (buffers * list effect) :=
  match ev with
  | StdoutData d => Some ({| out := out b ++ d; err := err b |}, [])
  | StderrData d => Some ({| out := out b; err := err b ++ d |}, [])
  | Close code => Some (b, on_close b code)
  | Exit _ => None
  | ErrorEvent _ => None
  end.

(** Node's [EventEmitter.emit]: an event with a listener runs it, an
    ['error'] event without a listener is thrown, any other event without a
    listener is dropped. *)
Definition emit `{Platform} (ev : child_event) (b : buffers)
  : completion (buffers * list effect) :=
  match listener ev b with
  | Some r => Normal r
  | None =>
      match ev with
      | ErrorEvent e => Throw e
      | _ => Normal (b, [])
      end
  end.

(** What a run of the handler leaves behind: its effects in order, and the
    exception, if any, that no [catch] and no listener took. *)
Record outcome `{Platform} := { effects : list effect; unhandled : option thrown }.

(** The event loop delivering the child's events one after the other, until
    one of them is thrown out of [emit]. *)
Fixpoint deliver `{Platform} (evs : list child_event) (b : buffers) : outcome :=
  match evs with
  | [] => {| effects := []; unhandled := None |}
  | ev :: rest =>
      match emit ev b with
      | Throw e => {| effects := []; unhandled := Some e |}
      | Normal (b', es) =>
          let o := deliver rest b' in
          {| effects := es ++ effects o; unhandled := unhandled o |}
      end
  end.

(** How [spawn] goes: it throws on the spot, or it returns a child whose
    events follow. *)
Inductive spawned :=
| SpawnThrows (e : thrown)
| Child (events : list child_event).

(** Lines 25-53. *)
Definition handler `{Platform} (req : request) (py : spawned) : outcome :=
  if negb (String.eqb (method req) "POST") then
    {| effects := [Respond 405 (error_body "Method not allowed")];
       unhandled := None |}
  else
    match parseForm req with
    | Throw e =>
        {| effects := [Respond 400 (error_body (message_or e "Bad request"))];
           unhandled := None |}
    | Normal filepath =>
        let call := Spawn "python3" [script_path; filepath] in
        match py with
        | SpawnThrows e =>
            {| effects := [call; Respond 400 (error_body (message_or e "Bad request"))];
               unhandled := None |}
        | Child events =>
            let o := deliver events {| out := ""; err := "" |} in
            {| effects := call :: effects o; unhandled := unhandled o |}
        end
    end.

(** *** The child processes Node can present *)

(** One piece of output, on either stream. *)
Inductive chunk := OnStdout (d : string) | OnStderr (d : string).

Definition data_event (c : chunk) : child_event :=
  match c with
  | OnStdout d => StdoutData d
  | OnStderr d => StderrData d
  end.

(** A process that started: its output, then ['exit'], then ['close'] once
    both streams have ended. *)
Definition runs (output : list chunk) (code : option Z) : list child_event :=
  map data_event output ++ [Exit code; Close code].

(** A process that could not be started ([ENOENT] and the like): Node
    reports it with an ['error'] event on the next tick. *)
Definition fails_to_start (e : thrown) : list child_event := [ErrorEvent e].

(** Everything written to one stream, in order. *)
Fixpoint stdout_text (output : list chunk) : string :=
  match output with
  | [] => ""
  | OnStdout d :: rest => d ++ stdout_text rest
  | OnStderr _ :: rest => stdout_text rest
  end.

Fixpoint stderr_text (output : list chunk) : string :=
  match output with
  | [] => ""
  | OnStdout _ :: rest => stderr_text rest
  | OnStderr d :: rest => d ++ stderr_text rest
  end.

(** *** Observations on an outcome *)

Definition is_spawn `{Platform} (e : effect) : bool :=
  match e with Spawn _ _ => true | _ => false end.

Definition is_unlink `{Platform} (e : effect) : bool :=
  match e with Unlink _ => true | _ => false end.

Definition spawns `{Platform} (o : outcome) : nat :=
  length (filter is_spawn (effects o)).

Definition unlinks `{Platform} (o : outcome) : nat :=
  length (filter is_unlink (effects o)).

Fixpoint responses_of `{Platform} (es : list effect) : list (Z * value) :=
  match es with
  | [] => []
  | Respond status body :: rest => (status, body) :: responses_of rest
  | _ :: rest => responses_of rest
  end.

Definition responses `{Platform} (o : outcome) : list (Z * value) :=
  responses_of (effects o).

End Reconstruct.

(** ** The capture client, the page component [Home] *)

Module Home.

(** A [Blob] or [File]: the bytes to upload. *)
Record Blob := { bytes : string; mime : string }.

(** The multipart body built at lines 55-56: one field, always sent under
    the file name ['frame.jpg']. *)
Record upload := { field : string; filename : string; content : Blob }.

(** How [fetch] settles. *)
Inductive fetched :=
| NetworkFailure (e : thrown)
| Response (status : Z) (text : string).

(** How [getUserMedia] followed by [play] settles (lines 22-27). *)
Inductive camera :=
| CameraFails (e : thrown)
| NoVideoElement
| Playing.

(** The component: its four pieces of React state, then what is pending in
    the event loop on its behalf and what it has sent and logged. *)
Record session `{Platform} := {
  streaming : bool;
  busy : bool;
  resultImg : option string;
  error : option string;
  cameras_pending : nat;
  snapshots_pending : nat;
  requests_pending : nat;
  sent : list upload;
  console : list value
}.

Definition initial `{Platform} : session :=
  {| streaming := false; busy := false; resultImg := None; error := None;
     cameras_pending := 0; snapshots_pending := 0; requests_pending := 0;
     sent := []; console := [] |}.

Section Setters.
Context `{Platform}.

Definition setStreaming (v : bool) (s : session) : session :=
  {| streaming := v; busy := busy s; resultImg := resultImg s; error := error s;
     cameras_pending := cameras_pending s;
     snapshots_pending := snapshots_pending s;
     requests_pending := requests_pending s; sent := sent s;
     console := console s |}.

Definition setBusy (v : bool) (s : session) : session :=
  {| streaming := streaming s; busy := v; resultImg := resultImg s;
     error := error s; cameras_pending := cameras_pending s;
     snapshots_pending := snapshots_pending s;
     requests_pending := requests_pending s; sent := sent s;
     console := console s |}.

Definition setResultImg (v : option string) (s : session) : session :=
  {| streaming := streaming s; busy := busy s; resultImg := v; error := error s;
     cameras_pending := cameras_pending s;
     snapshots_pending := snapshots_pending s;
     requests_pending := requests_pending s; sent := sent s;
     console := console s |}.

Definition setError (v : option string) (s : session) : session :=
  {| streaming := streaming s; busy := busy s; resultImg := resultImg s;
     error := v; cameras_pending := cameras_pending s;
     snapshots_pending := snapshots_pending s;
     requests_pending := requests_pending s; sent := sent s;
     console := console s |}.

Definition console_log (v : value) (s : session) : session :=
  {| streaming := streaming s; busy := busy s; resultImg := resultImg s;
     error := error s; cameras_pending := cameras_pending s;
     snapshots_pending := snapshots_pending s;
     requests_pending := requests_pending s; sent := sent s;
     console := console s ++ [v] |}.

(** Bookkeeping of the promises awaited by the component. *)
Definition await_camera (s : session) : session :=
  {| streaming := streaming s; busy := busy s; resultImg := resultImg s;
     error := error s; cameras_pending := S (cameras_pending s);
     snapshots_pending := snapshots_pending s;
     requests_pending := requests_pending s; sent := sent s;
     console := console s |}.

Definition camera_settled (s : session) : session :=
  {| streaming := streaming s; busy := busy s; resultImg := resultImg s;
     error := error s; cameras_pending := pred (cameras_pending s);
     snapshots_pending := snapshots_pending s;
     requests_pending := requests_pending s; sent := sent s;
     console := console s |}.

Definition await_snapshot (s : session) : session :=
  {| streaming := streaming s; busy := busy s; resultImg := resultImg s;
     error := error s; cameras_pending := cameras_pending s;
     snapshots_pending := S (snapshots_pending s);
     requests_pending := requests_pending s; sent := sent s;
     console := console s |}.

Definition snapshot_settled (s : session) : session :=
  {| streaming := streaming s; busy := busy s; resultImg := resultImg s;
     error := error s; cameras_pending := cameras_pending s;
     snapshots_pending := pred (snapshots_pending s);
     requests_pending := requests_pending s; sent := sent s;
     console := console s |}.

(** [fetch('/api/reconstruct', { method: 'POST', body: form })] *)
Definition fetch (form : upload) (s : session) : session :=
  {| streaming := streaming s; busy := busy s; resultImg := resultImg s;
     error := error s; cameras_pending := cameras_pending s;
     snapshots_pending := snapshots_pending s;
     requests_pending := S (requests_pending s); sent := sent s ++ [form];
     console := console s |}.

Definition fetch_settled (s : session) : session :=
  {| streaming := streaming s; busy := busy s; resultImg := resultImg s;
     error := error s; cameras_pending := cameras_pending s;
     snapshots_pending := snapshots_pending s;
     requests_pending := pred (requests_pending s); sent := sent s;
     console := console s |}.

End Setters.

(** [res.ok] *)
Definition ok (status : Z) : bool := (200 <=? status)%Z && (status <=? 299)%Z.

Section Component.
Context `{Platform}.

(** Lines 19-20: [startCamera] up to its first [await]. *)
Definition startCamera (s : session) : session :=
  await_camera (setError None s).

(** Lines 22-30: [startCamera] once the camera has settled. *)
Definition startCamera_resume (c : camera) (s : session) : session :=
  let s := camera_settled s in
  match c with
  | Playing => setStreaming true s
  | NoVideoElement => s
  | CameraFails e => setError (Some (message_or e "Failed to access camera")) s
  end.

(** Lines 50-57: [analyze] up to [await fetch]. *)
Definition analyze (blob : Blob) (s : session) : session :=
  let s := setBusy true s in
  let s := setError None s in
  let s := setResultImg None s in
  let form := {| field := "image"; filename := "frame.jpg"; content := blob |} in
  fetch form s.

(** Lines 57-59: the body of the [try] after [fetch] has settled, up to
    [data]. *)
Definition response_data (r : fetched) : completion value :=
  match r with
  | NetworkFailure e => Throw e
  | Response status text =>
      if negb (ok status) then Throw (Error ("Server error: " ++ decimal status))
      else JSON_parse text
  end.

(** Lines 60-62. *)
Definition show_reconstruction (data : value) (s : session) : session :=
  match get data "reconstructed_base64" with
  | Some v =>
      if truthy (Some v) then
        setResultImg (Some ("data:image/jpeg;base64," ++ to_string v)) s
      else s
  | None => s
  end.

(** Lines 63-65. *)
Definition log_analysis (data : value) (s : session) : session :=
  match get data "analysis" with
  | Some a => if truthy (Some a) then console_log a s else s
  | None => s
  end.

(** Lines 58-70: [analyze] once [fetch] has settled. *)
Definition analyze_resume (r : fetched) (s : session) : session :=
  let s := fetch_settled s in
  let s :=
    match response_data r with
    | Normal data => log_analysis data (show_reconstruction data s)
    | Throw e => setError (Some (message_or e "Failed to analyze")) s
    end in
  setBusy false s.

(** Lines 73-75: [captureAndAnalyze] up to [await snapshotBlob()];
    [canvas.toBlob] calls back later. *)
Definition captureAndAnalyze (s : session) : session :=
  await_snapshot s.

(** Lines 75-79: [captureAndAnalyze] once the snapshot has settled.  A
    rejected snapshot carries a plain string, which has no [message]. *)
Definition captureAndAnalyze_resume (b : completion Blob) (s : session) : session :=
  let s := snapshot_settled s in
  match b with
  | Normal blob => analyze blob s
  | Throw e => setError (Some (message_or e "Capture failed")) s
  end.

(** Lines 82-86; [f] is [e.target.files?.[0]]. *)
Definition onFileInput (f : option Blob) (s : session) : session :=
  match f with
  | None => s
  | Some file => analyze file s
  end.

(** What can happen to the page: the user acts on one of the three
    controls, or something the component awaits settles. *)
Inductive event :=
| ClickStartCamera
| ClickCapture
| SelectFile (f : option Blob)
| CameraSettles (c : camera)
| SnapshotSettles (b : completion Blob)
| FetchSettles (r : fetched).

(** The [disabled] attributes of the two buttons (lines 97 and 98).  The
    file input (line 103) has none. *)
Definition start_disabled (s : session) : bool := streaming s.
Definition capture_disabled (s : session) : bool := negb (streaming s) || busy s.

(** One turn of the event loop.  A disabled button does not fire, and
    nothing settles that is not awaited. *)
Definition step (s : session) (ev : event) : session :=
  match ev with
  | ClickStartCamera => if start_disabled s then s else startCamera s
  | ClickCapture => if capture_disabled s then s else captureAndAnalyze s
  | SelectFile f => onFileInput f s
  | CameraSettles c =>
      match cameras_pending s with
      | O => s
      | S _ => startCamera_resume c s
      end
  | SnapshotSettles b =>
      match snapshots_pending s with
      | O => s
      | S _ => captureAndAnalyze_resume b s
      end
  | FetchSettles r =>
      match requests_pending s with
      | O => s
      | S _ => analyze_resume r s
      end
  end.

Definition run (evs : list event) (s : session) : session :=
  fold_left step evs s.

(** The sessions a page can be in. *)
Inductive reachable : session -> Prop :=
| reachable_initial : reachable initial
| reachable_step s ev : reachable s -> reachable (step s ev).

(** The page is in its Analyzing state: a request is in flight. *)
Definition analyzing (s : session) : bool := negb (Nat.eqb (requests_pending s) 0).

(** An event starts an analysis attempt when it issues a request. *)
Definition starts_attempt (s : session) (ev : event) : bool :=
  Nat.ltb (length (sent s)) (length (sent (step s ev))).

End Component.

End Home.

(** ** The page around the component: refs, snapshot, teardown, render *)

Module Page.

(** A [MediaStreamTrack]; [stop()] ends it for good. *)
Record track := { kind : string; ended : bool }.

Definition stop (t : track) : track := {| kind := kind t; ended := true |}.

(** The [<video>] element behind [videoRef], as the code reads it:
    [srcObject] is the stream's list of tracks, [None] before a stream is
    attached. *)
Record video_element := {
  videoWidth : N;
  videoHeight : N;
  srcObject : option (list track)
}.

(** The [<canvas>] behind [canvasRef]: its size, whether [getContext('2d')]
    hands out a context, and the [drawImage] rectangles painted on it. *)
Record canvas_element := {
  width : N;
  height : N;
  context2d : bool;
  painted : list (N * N * N * N)
}.

(** [n || fallback] on a number that is never [NaN]: zero is falsy. *)
Definition or_default (n fallback : N) : N :=
  if (n =? 0)%N then fallback else n.

(** [reject('...')]: the rejection value is a string, and a string has no
    [message]. *)
Definition reject_string (reason : string) : thrown := Thrown None.


(** Lines 12-16, the teardown returned by the effect. *)
Definition cleanup (videoRef : option video_element) : option video_element :=
  match videoRef with
  | Some video =>
      match srcObject video with
      | Some tracks =>
          Some {| videoWidth := videoWidth video; videoHeight := videoHeight video;
                  srcObject := Some (map stop tracks) |}
      | None => videoRef
      end
  | None => None
  end.

(** Lines 33-48.  [encoded] is what [canvas.toBlob] passes to its callback:
    the JPEG bytes, or [null].  Assigning [canvas.width] clears the canvas.
    The result is the canvas as the call leaves it and the way the promise
    settles. *)
Definition snapshotBlob (videoRef : option video_element)
           (canvasRef : option canvas_element) (encoded : option string)
  : option canvas_element * completion Home.Blob :=
  match videoRef, canvasRef with
  | Some video, Some canvas =>
      let w := or_default (videoWidth video) 640 in
      let h := or_default (videoHeight video) 480 in
      let sized := {| width := w; height := h; context2d := context2d canvas;
                      painted := [] |} in
      if negb (context2d canvas) then
        (Some sized, Throw (reject_string "No ctx"))
      else
        let drawn := {| width := w; height := h; context2d := context2d canvas;
                        painted := [(0, 0, w, h)%N] |} in
        match encoded with
        | None => (Some drawn, Throw (reject_string "No blob"))
        | Some jpeg =>
            (Some drawn, Normal {| Home.bytes := jpeg; Home.mime := "image/jpeg" |})
        end
  | _, _ => (canvasRef, Throw (reject_string "No video"))
  end.

(** What lines 88-118 put on the page that depends on the state. *)
Record view := {
  start_button_disabled : bool;
  capture_button_disabled : bool;
  capture_button_label : string;
  image_src : option string;
  error_text : option string
}.

(** [{x && <element/>}] for a string or [null]: the empty string is falsy
    and renders nothing. *)
Definition when_truthy (x : option string) : option string :=
  match x with
  | Some "" => None
  | _ => x
  end.

Definition render `{Platform} (s : Home.session) : view :=
  {| start_button_disabled := Home.start_disabled s;
     capture_button_disabled := Home.capture_disabled s;
     capture_button_label :=
       if Home.busy s then "Analyzing?" else "Capture & Analyze";
     image_src := when_truthy (Home.resultImg s);
     error_text := when_truthy (Home.error s) |}.

End Page.

(** ** A platform to run the code on

    Integers for numbers, and a parser for the fragment of JSON without
    escape sequences, fractions and exponents; text outside the fragment is
    rejected.  The theorems below are stated for every platform; this one
    evaluates the code on concrete requests. *)

Module Sample.

#[local] Open Scope char_scope.

Definition dquote : ascii := "034".

(** A string literal of JSON text: [s] between double quotes. *)
Definition quoted (s : string) : string := String dquote (s ++ String dquote "").

Definition is_space (c : ascii) : bool :=
  match c with
  | " " | "009" | "010" | "013" => true
  | _ => false
  end.

Fixpoint skip_space (s : list ascii) : list ascii :=
  match s with
  | c :: r => if is_space c then skip_space r else s
  | [] => []
  end.

Definition digit (c : ascii) : option Z :=
  let n := Z.of_nat (nat_of_ascii c) in
  if (48 <=? n)%Z && (n <=? 57)%Z then Some (n - 48)%Z else None.

Fixpoint read_digits (s : list ascii) (acc : Z) : Z * list ascii :=
  match s with
  | c :: r =>
      match digit c with
      | Some d => read_digits r (10 * acc + d)%Z
      | None => (acc, s)
      end
  | [] => (acc, [])
  end.

(** An integer literal without sign: no leading zero, and no fraction or
    exponent after it. *)
Definition read_natural (s : list ascii) : option (Z * list ascii) :=
  match s with
  | c :: r =>
      match digit c with
      | None => None
      | Some d =>
          let '(n, rest) := if (d =? 0)%Z then (0%Z, r) else read_digits r d in
          match rest with
          | c' :: _ =>
              match digit c', c' with
              | Some _, _ | _, "." | _, "e" | _, "E" => None
              | _, _ => Some (n, rest)
              end
          | [] => Some (n, rest)
          end
      end
  | [] => None
  end.

(** The characters of a string literal up to its closing quote. *)
Fixpoint read_string (s : list ascii) : option (string * list ascii) :=
  match s with
  | [] => None
  | c :: r =>
      if Ascii.eqb c dquote then Some (EmptyString, r)
      else if Ascii.eqb c "\" then None
      else if (nat_of_ascii c <? 32)%nat then None
      else
        match read_string r with
        | Some (str, rest) => Some (String c str, rest)
        | None => None
        end
  end.

(** Assignment to a property: a repeated key keeps its place and takes the
    later value. *)
Fixpoint set_prop {A : Type} (key : string) (v : A) (props : list (string * A))
  : list (string * A) :=
  match props with
  | [] => [(key, v)]
  | (k, w) :: rest =>
      if String.eqb k key then (k, v) :: rest else (k, w) :: set_prop key v rest
  end.

Fixpoint parse_value (fuel : nat) (s : list ascii) : option (json Z * list ascii) :=
  match fuel with
  | O => None
  | S fuel' =>
      match skip_space s with
      | "n" :: "u" :: "l" :: "l" :: r => Some (JNull, r)
      | "t" :: "r" :: "u" :: "e" :: r => Some (JBool true, r)
      | "f" :: "a" :: "l" :: "s" :: "e" :: r => Some (JBool false, r)
      | "034" :: r =>
          match read_string r with
          | Some (str, rest) => Some (JStr str, rest)
          | None => None
          end
      | "-" :: r =>
          match read_natural r with
          | Some (n, rest) => Some (JNum (- n)%Z, rest)
          | None => None
          end
      | "[" :: r =>
          match skip_space r with
          | "]" :: rest => Some (JArr [], rest)
          | _ =>
              (fix items (n : nat) (r : list ascii) (acc : list (json Z)) :=
                 match n with
                 | O => None
                 | S n' =>
                     match parse_value fuel' r with
                     | Some (v, r1) =>
                         match skip_space r1 with
                         | "," :: r2 => items n' r2 (acc ++ [v])%list
                         | "]" :: r2 => Some (JArr (acc ++ [v])%list, r2)
                         | _ => None
                         end
                     | None => None
                     end
                 end) (length r) r []
          end
      | "{" :: r =>
          match skip_space r with
          | "}" :: rest => Some (JObj [], rest)
          | _ =>
              (fix members (n : nat) (r : list ascii) (acc : list (string * json Z)) :=
                 match n with
                 | O => None
                 | S n' =>
                     match skip_space r with
                     | "034" :: r0 =>
                         match read_string r0 with
                         | Some (key, r1) =>
                             match skip_space r1 with
                             | ":" :: r2 =>
                                 match parse_value fuel' r2 with
                                 | Some (v, r3) =>
                                     match skip_space r3 with
                                     | "," :: r4 => members n' r4 (set_prop key v acc)
                                     | "}" :: r4 => Some (JObj (set_prop key v acc), r4)
                                     | _ => None
                                     end
                                 | None => None
                                 end
                             | _ => None
                             end
                         | None => None
                         end
                     | _ => None
                     end
                 end) (length r) r []
          end
      | r =>
          match read_natural r with
          | Some (n, rest) => Some (JNum n, rest)
          | None => None
          end
      end
  end.

Definition parse (text : string) : completion (json Z) :=
  let s := list_ascii_of_string text in
  match parse_value (S (length s)) s with
  | Some (v, rest) =>
      match skip_space rest with
      | [] => Normal v
      | _ => Throw (Error "Unexpected non-whitespace character after JSON")
      end
  | None => Throw (Error "Unexpected token in JSON")
  end.

#[global] Instance platform : Platform := {|
  number := Z;
  number_truthy := fun n => negb (n =? 0)%Z;
  number_to_string := decimal;
  JSON_parse := parse;
  script_path := "/app/api/reconstruct.py"
|}.

End Sample.

(** ** Requests and sessions to run the code on *)

Definition upload_request (path : string) : Reconstruct.request :=
  {| Reconstruct.method := "POST";
     Reconstruct.body :=
       {| Reconstruct.form_err := None;
          Reconstruct.files_image := Some {| Reconstruct.filepath := path |} |} |}.

Definition empty_request : Reconstruct.request :=
  {| Reconstruct.method := "POST";
     Reconstruct.body :=
       {| Reconstruct.form_err := None; Reconstruct.files_image := None |} |}.

Definition frame : Home.Blob := {| Home.bytes := "JFIF"; Home.mime := "image/jpeg" |}.
Definition photo : Home.Blob := {| Home.bytes := "PNG"; Home.mime := "image/png" |}.

(** A session that shows the result of a first attempt. *)
Definition after_success : Home.session :=
  Home.run
    [Home.SelectFile (Some photo);
     Home.FetchSettles
       (Home.Response 200
          ("{" ++ Sample.quoted "reconstructed_base64" ++ ":"
               ++ Sample.quoted "Zm9v" ++ "}"))]
    Home.initial.

(** A session in which a second file was selected while the first request
    was in flight, and one of the two requests has failed since. *)
Definition overlapped : Home.session :=
  Home.run
    [Home.SelectFile (Some photo);
     Home.SelectFile (Some frame);
     Home.FetchSettles (Home.Response 500 "")]
    Home.initial.

(** * Properties *)

(** ** Strings *)

Lemma append_assoc (a b c : string) : (a ++ b) ++ c = a ++ (b ++ c).
Proof.
  induction a as [|x a IH]; simpl.
  - reflexivity.
  - now rewrite IH.
Qed.

Lemma message_or_nonempty (e : thrown) (fallback : string) :
  fallback <> "" -> message_or e fallback <> "".
Proof.
  intros Hf; unfold message_or.
  destruct (message e) as [[|c m]|]; trivial; discriminate.
Qed.

(** ** The request handler *)

Section HandlerFacts.
Context `{Platform}.
Import Reconstruct.

(** The two ['data'] listeners append to their buffer and do nothing else,
    so after the output of the child the buffers hold the text of each
    stream. *)
Lemma deliver_data (output : list chunk) (rest : list child_event) (b : buffers) :
  deliver (map data_event output ++ rest)%list b =
  deliver rest {| out := out b ++ stdout_text output;
                  err := err b ++ stderr_text output |}.
Proof.
  revert b; induction output as [|[d|d] output IH]; intros b; simpl.
  - destruct b as [o e]; simpl.
    f_equal; f_equal; clear; [induction o | induction e]; simpl; congruence.
  - rewrite IH; simpl. rewrite append_assoc.
    now destruct (deliver rest _).
  - rewrite IH; simpl. rewrite append_assoc.
    now destruct (deliver rest _).
Qed.

(** A child that ran to its end: the only effects are those of the
    ['close'] listener, on the text of the two streams. *)
Lemma deliver_runs (output : list chunk) (code : option Z) :
  deliver (runs output code) {| out := ""; err := "" |} =
  {| effects := on_close {| out := stdout_text output;
                            err := stderr_text output |} code;
     unhandled := None |}.
Proof.
  unfold runs. rewrite deliver_data. simpl.
  now rewrite app_nil_r.
Qed.

Lemma on_close_responds (b : buffers) (code : option Z) :
  exists status body, on_close b code = [Respond status body].
Proof.
  unfold on_close.
  destruct (negb (code_is_zero code)); [eauto|].
  destruct (JSON_parse (out b)); eauto.
Qed.

(** Whatever the child does, the listeners neither start a process nor
    touch a file. *)
Lemma deliver_only_responds (evs : list child_event) (b : buffers) :
  filter is_spawn (effects (deliver evs b)) = [] /\
  filter is_unlink (effects (deliver evs b)) = [].
Proof.
  revert b; induction evs as [|ev evs IH]; intros b; simpl; [now split|].
  destruct ev as [d|d|c|c|e]; simpl;
    try (destruct (IH {| out := out b ++ d; err := err b |}); now split);
    try (destruct (IH {| out := out b; err := err b ++ d |}); now split);
    try (destruct (IH b); now split).
  destruct (on_close_responds b c) as (st & bd & ->); simpl.
  apply IH.
Qed.

(** X2: on every path but one the handler answers exactly once and lets no
    exception escape: a request that is not a POST, an upload that does not
    parse, a [spawn] that throws, a child that runs to its end. *)
Lemma handler_answers_once (req : request) (output : list chunk) (code : option Z)
      (e : thrown) (py : spawned) :
  py = SpawnThrows e \/ py = Child (runs output code) ->
  length (responses (handler req py)) = 1%nat /\
  unhandled (handler req py) = None.
Proof.
  intros Hpy. unfold handler, responses.
  destruct (negb (method req =? "POST")); [now split|].
  destruct (parseForm req) as [path|e']; [|now split].
  destruct Hpy as [-> | ->]; [now split|].
  rewrite deliver_runs; simpl.
  destruct (on_close_responds {| out := stdout_text output;
                                 err := stderr_text output |} code)
    as (st & bd & ->).
  now split.
Qed.


End HandlerFacts.

(** C1, as the code has it: for every request that reaches the subprocess
    stage (a POST whose upload parses), whatever [spawn] and the child then
    do (success, non-zero exit, malformed output, failure to start), the
    handler calls [spawn] exactly once and never deletes the uploaded
    file. *)
Theorem one_spawn_no_unlink `{Platform}
        (req : Reconstruct.request) (path : string) (py : Reconstruct.spawned) :
  Reconstruct.method req = "POST" ->
  Reconstruct.parseForm req = Normal path ->
  Reconstruct.spawns (Reconstruct.handler req py) = 1%nat /\
  Reconstruct.unlinks (Reconstruct.handler req py) = 0%nat.
Proof.
  intros Hm Hp.
  unfold Reconstruct.spawns, Reconstruct.unlinks, Reconstruct.handler.
  rewrite Hm, Hp; simpl.
  destruct py as [e|evs]; simpl; [now split|].
  destruct (deliver_only_responds evs {| Reconstruct.out := ""; Reconstruct.err := "" |})
    as [-> ->].
  now split.
Qed.

Lemma one_spawn_no_unlink_witness :
  let o := Reconstruct.handler (upload_request "/tmp/upload_1.jpg")
             (Reconstruct.Child
                (Reconstruct.runs [Reconstruct.OnStderr "cannot decode image"] (Some 1%Z))) in
  Reconstruct.spawns o = 1%nat /\ Reconstruct.unlinks o = 0%nat.
Proof.
  apply (one_spawn_no_unlink (upload_request "/tmp/upload_1.jpg") "/tmp/upload_1.jpg");
    reflexivity.
Defined.

(** C1, as the spec states it, fails: on a successful run the handler
    spawns once but the uploaded file is not deleted once; it is not
    deleted at all. *)
Lemma temp_file_not_deleted :
  let o := Reconstruct.handler (upload_request "/tmp/upload_1.jpg")
             (Reconstruct.Child
                (Reconstruct.runs [Reconstruct.OnStdout "{}"] (Some 0%Z))) in
  ~ (Reconstruct.spawns o = 1%nat /\ Reconstruct.unlinks o = 1%nat).
Proof.
  intros o [_ Hu]. vm_compute in Hu. discriminate.
Qed.

(** C2: when the child closes with a code other than zero (or with none,
    killed by a signal), the handler answers 500 once; [details] is
    everything the child wrote to stderr, and nothing the child wrote to
    stdout is part of the answer. *)
Theorem nonzero_exit_reports_stderr `{Platform}
        (req : Reconstruct.request) (path : string)
        (output : list Reconstruct.chunk) (code : option Z) :
  Reconstruct.method req = "POST" ->
  Reconstruct.parseForm req = Normal path ->
  code <> Some 0%Z ->
  Reconstruct.responses
    (Reconstruct.handler req (Reconstruct.Child (Reconstruct.runs output code))) =
  [(500%Z, JObj [("error", JStr "Python failed");
                 ("details", JStr (Reconstruct.stderr_text output))])].
Proof.
  intros Hm Hp Hc.
  unfold Reconstruct.responses, Reconstruct.handler.
  rewrite Hm, Hp; simpl.
  rewrite deliver_runs; simpl.
  unfold Reconstruct.on_close.
  assert (Reconstruct.code_is_zero code = false) as ->.
  { destruct code as [c|]; simpl; trivial.
    apply Z.eqb_neq. congruence. }
  reflexivity.
Qed.

Lemma nonzero_exit_reports_stderr_witness :
  Reconstruct.responses
    (Reconstruct.handler (upload_request "/tmp/x.txt")
       (Reconstruct.Child
          (Reconstruct.runs
             [Reconstruct.OnStdout "loading"; Reconstruct.OnStderr "cannot ";
              Reconstruct.OnStdout " model"; Reconstruct.OnStderr "decode image"]
             (Some 1%Z)))) =
  [(500%Z, JObj [("error", JStr "Python failed");
                 ("details", JStr "cannot decode image")])].
Proof.
  apply (nonzero_exit_reports_stderr (upload_request "/tmp/x.txt") "/tmp/x.txt");
    [reflexivity | reflexivity | discriminate].
Defined.

(** C3: when the child closes with code zero and its stdout is not JSON,
    the handler answers 500 once and [details] is the stdout text as it
    was written; the exception of [JSON.parse] is dropped. *)
Theorem invalid_json_reports_stdout `{Platform}
        (req : Reconstruct.request) (path : string)
        (output : list Reconstruct.chunk) (e : thrown) :
  Reconstruct.method req = "POST" ->
  Reconstruct.parseForm req = Normal path ->
  JSON_parse (Reconstruct.stdout_text output) = Throw e ->
  Reconstruct.responses
    (Reconstruct.handler req (Reconstruct.Child (Reconstruct.runs output (Some 0%Z)))) =
  [(500%Z, JObj [("error", JStr "Invalid JSON from Python");
                 ("details", JStr (Reconstruct.stdout_text output))])].
Proof.
  intros Hm Hp Hj.
  unfold Reconstruct.responses, Reconstruct.handler.
  rewrite Hm, Hp; simpl.
  rewrite deliver_runs; simpl.
  unfold Reconstruct.on_close; simpl.
  now rewrite Hj.
Qed.

Lemma invalid_json_reports_stdout_witness :
  Reconstruct.responses
    (Reconstruct.handler (upload_request "/tmp/upload_1.jpg")
       (Reconstruct.Child
          (Reconstruct.runs
             [Reconstruct.OnStdout "Downloading "; Reconstruct.OnStderr "warn";
              Reconstruct.OnStdout "weights"]
             (Some 0%Z)))) =
  [(500%Z, JObj [("error", JStr "Invalid JSON from Python");
                 ("details", JStr "Downloading weights")])].
Proof.
  exact (invalid_json_reports_stdout (upload_request "/tmp/upload_1.jpg")
           "/tmp/upload_1.jpg"
           [Reconstruct.OnStdout "Downloading "; Reconstruct.OnStderr "warn";
            Reconstruct.OnStdout "weights"]
           (Error "Unexpected token in JSON") eq_refl eq_refl eq_refl).
Defined.

(** C4: when the child closes with code zero and its stdout is JSON, the
    handler answers 200 once and the body is the parsed value itself,
    whatever its shape. *)
Theorem valid_json_passes_through `{Platform}
        (req : Reconstruct.request) (path : string)
        (output : list Reconstruct.chunk) (parsed : value) :
  Reconstruct.method req = "POST" ->
  Reconstruct.parseForm req = Normal path ->
  JSON_parse (Reconstruct.stdout_text output) = Normal parsed ->
  Reconstruct.responses
    (Reconstruct.handler req (Reconstruct.Child (Reconstruct.runs output (Some 0%Z)))) =
  [(200%Z, parsed)].
Proof.
  intros Hm Hp Hj.
  unfold Reconstruct.responses, Reconstruct.handler.
  rewrite Hm, Hp; simpl.
  rewrite deliver_runs; simpl.
  unfold Reconstruct.on_close; simpl.
  now rewrite Hj.
Qed.

(** A body without the reconstruction field passes like any other. *)
Lemma valid_json_passes_through_witness :
  Reconstruct.responses
    (Reconstruct.handler (upload_request "/tmp/upload_1.jpg")
       (Reconstruct.Child
          (Reconstruct.runs
             [Reconstruct.OnStdout ("{" ++ Sample.quoted "analysis");
              Reconstruct.OnStdout ": [] }"]
             (Some 0%Z)))) =
  [(200%Z, JObj [("analysis", JArr [])])].
Proof.
  exact (valid_json_passes_through (upload_request "/tmp/upload_1.jpg")
           "/tmp/upload_1.jpg"
           [Reconstruct.OnStdout ("{" ++ Sample.quoted "analysis");
            Reconstruct.OnStdout ": [] }"]
           (JObj [("analysis", JArr [])]) eq_refl eq_refl eq_refl).
Defined.

(** The two scenarios of the spec. *)
Example scenario_engine_fails :
  Reconstruct.responses
    (Reconstruct.handler (upload_request "/tmp/x.txt")
       (Reconstruct.Child
          (Reconstruct.runs [Reconstruct.OnStderr "cannot decode image"] (Some 1%Z)))) =
  [(500%Z, JObj [("error", JStr "Python failed");
                 ("details", JStr "cannot decode image")])].
Proof. reflexivity. Qed.

Example scenario_engine_succeeds :
  Reconstruct.responses
    (Reconstruct.handler (upload_request "/tmp/upload_1.jpg")
       (Reconstruct.Child
          (Reconstruct.runs
             [Reconstruct.OnStdout
                ("{" ++ Sample.quoted "reconstructed_base64" ++ ":"
                     ++ Sample.quoted "Zm9v" ++ "}")]
             (Some 0%Z)))) =
  [(200%Z, JObj [("reconstructed_base64", JStr "Zm9v")])].
Proof. reflexivity. Qed.

(** C6 fails on the code: the handler registers no ['error'] listener on
    the child, so when the engine cannot be started (no [python3] on the
    path) the ['error'] event is thrown out of the event loop and the
    request is never answered. *)
Theorem spawn_failure_is_unhandled :
  Reconstruct.handler (upload_request "/tmp/upload_1.jpg")
    (Reconstruct.Child (Reconstruct.fails_to_start (Error "spawn python3 ENOENT"))) =
  {| Reconstruct.effects :=
       [Reconstruct.Spawn "python3" ["/app/api/reconstruct.py"; "/tmp/upload_1.jpg"]];
     Reconstruct.unhandled := Some (Error "spawn python3 ENOENT") |}.
Proof. reflexivity. Qed.

(** C7: a POST whose body does not parse, or parses without an [image]
    file, is answered 400 with a non-empty message, and [spawn] is not
    called. *)
Theorem bad_upload_is_rejected `{Platform}
        (req : Reconstruct.request) (py : Reconstruct.spawned) :
  Reconstruct.method req = "POST" ->
  Reconstruct.form_err (Reconstruct.body req) <> None \/
  Reconstruct.files_image (Reconstruct.body req) = None ->
  exists msg : string,
    msg <> "" /\
    Reconstruct.handler req py =
    {| Reconstruct.effects := [Reconstruct.Respond 400 (JObj [("error", JStr msg)])];
       Reconstruct.unhandled := None |} /\
    Reconstruct.spawns (Reconstruct.handler req py) = 0%nat.
Proof.
  intros Hm Hbad.
  assert (exists e, Reconstruct.parseForm req = Throw e) as [e He].
  { unfold Reconstruct.parseForm.
    destruct (Reconstruct.form_err (Reconstruct.body req)) as [e|]; [eauto|].
    destruct Hbad as [Hbad | ->]; [congruence | eauto]. }
  exists (message_or e "Bad request").
  unfold Reconstruct.spawns, Reconstruct.handler.
  rewrite Hm, He; simpl.
  repeat split. apply message_or_nonempty. discriminate.
Qed.

Lemma bad_upload_is_rejected_witness :
  exists msg : string,
    msg <> "" /\
    Reconstruct.handler empty_request (Reconstruct.Child (Reconstruct.runs [] (Some 0%Z))) =
    {| Reconstruct.effects := [Reconstruct.Respond 400 (JObj [("error", JStr msg)])];
       Reconstruct.unhandled := None |} /\
    Reconstruct.spawns
      (Reconstruct.handler empty_request (Reconstruct.Child (Reconstruct.runs [] (Some 0%Z))))
    = 0%nat.
Proof.
  apply (bad_upload_is_rejected empty_request); [reflexivity | right; reflexivity].
Defined.

(** ** The capture client *)

Section ClientFacts.
Context `{Platform}.
Import Home.

Lemma show_reconstruction_sent (data : value) (s : session) :
  sent (show_reconstruction data s) = sent s.
Proof.
  unfold show_reconstruction.
  destruct (get data "reconstructed_base64") as [v|]; trivial.
  now destruct (truthy (Some v)).
Qed.

Lemma log_analysis_keeps (data : value) (s : session) :
  sent (log_analysis data s) = sent s /\
  error (log_analysis data s) = error s /\
  resultImg (log_analysis data s) = resultImg s.
Proof.
  unfold log_analysis.
  destruct (get data "analysis") as [a|]; [|now repeat split].
  now destruct (truthy (Some a)).
Qed.

(** Settling a request sends nothing. *)
Lemma analyze_resume_sent (r : fetched) (s : session) :
  sent (analyze_resume r s) = sent s.
Proof.
  unfold analyze_resume.
  destruct (response_data r) as [data|e]; trivial.
  change (sent (log_analysis data (show_reconstruction data (fetch_settled s)))
          = sent s).
  destruct (log_analysis_keeps data (show_reconstruction data (fetch_settled s)))
    as (-> & _).
  now rewrite show_reconstruction_sent.
Qed.

(** The only events that send a request are the selection of a file and a
    snapshot that succeeds; both go through [analyze]. *)
Lemma starts_attempt_inv (s : session) (ev : event) :
  starts_attempt s ev = true ->
  exists blob, step s ev = analyze blob s \/
               step s ev = analyze blob (snapshot_settled s).
Proof.
  unfold starts_attempt. intros Hlt. apply Nat.ltb_lt in Hlt.
  destruct ev as [| |[f|]|c|[b|e]|r]; simpl in *.
  - destruct (start_disabled s); simpl in Hlt; lia.
  - destruct (capture_disabled s); simpl in Hlt; lia.
  - eauto.
  - lia.
  - destruct (cameras_pending s); [lia|].
    destruct c; simpl in Hlt; lia.
  - destruct (snapshots_pending s); [lia|]. eauto.
  - destruct (snapshots_pending s); simpl in Hlt; lia.
  - destruct (requests_pending s); [lia|].
    rewrite analyze_resume_sent in Hlt. lia.
Qed.

(** The capture button is gated by [busy]: while a request of the session
    is shown as in flight, a click on it does nothing. *)
Lemma capture_click_is_gated (s : session) :
  busy s = true -> step s ClickCapture = s.
Proof.
  intros Hb; simpl. unfold capture_disabled. rewrite Hb.
  now rewrite orb_true_r.
Qed.

(** Without the camera streaming the capture button does nothing either. *)
Lemma capture_needs_streaming (s : session) :
  streaming s = false -> step s ClickCapture = s.
Proof.
  intros Hs; simpl. unfold capture_disabled. now rewrite Hs.
Qed.

End ClientFacts.

Example overlapped_still_pending :
  Home.requests_pending overlapped = 1%nat /\
  Home.error overlapped = Some "Server error: 500".
Proof. split; reflexivity. Qed.

Example after_success_shows_image :
  Home.resultImg after_success = Some "data:image/jpeg;base64,Zm9v" /\
  Home.busy after_success = false.
Proof. split; reflexivity. Qed.

(** C5 fails on the code: the file input has no [disabled] attribute and
    [onFileInput] does not look at [busy], so selecting a file while a
    request is in flight sends a second request next to the first. *)
Theorem file_selection_ignores_busy :
  let s1 := Home.step Home.initial (Home.SelectFile (Some photo)) in
  let s2 := Home.step s1 (Home.SelectFile (Some frame)) in
  Home.reachable s1 /\
  Home.busy s1 = true /\ Home.analyzing s1 = true /\
  Home.requests_pending s1 = 1%nat /\
  Home.starts_attempt s1 (Home.SelectFile (Some frame)) = true /\
  Home.requests_pending s2 = 2%nat.
Proof.
  repeat split.
  apply Home.reachable_step, Home.reachable_initial.
Qed.

(** C8: an event that starts an attempt leaves the page busy with neither
    an error nor a result image on display. *)
Theorem attempt_starts_clean `{Platform} (s : Home.session) (ev : Home.event) :
  Home.starts_attempt s ev = true ->
  Home.busy (Home.step s ev) = true /\
  Home.error (Home.step s ev) = None /\
  Home.resultImg (Home.step s ev) = None.
Proof.
  intros Hs.
  destruct (starts_attempt_inv s ev Hs) as [blob [-> | ->]]; now repeat split.
Qed.

Lemma attempt_starts_clean_witness :
  Home.busy (Home.step after_success (Home.SelectFile (Some frame))) = true /\
  Home.error (Home.step after_success (Home.SelectFile (Some frame))) = None /\
  Home.resultImg (Home.step after_success (Home.SelectFile (Some frame))) = None.
Proof.
  apply (attempt_starts_clean after_success (Home.SelectFile (Some frame))).
  reflexivity.
Defined.

(** C9: a 2xx answer whose body parses and has no [reconstructed_base64]
    sets neither the error nor the result image; an attempt that ends with
    it leaves the page idle with no error and no image. *)
Theorem missing_reconstruction_is_no_error `{Platform}
        (s : Home.session) (blob : Home.Blob) (status : Z) (text : string)
        (data : value) :
  Home.ok status = true ->
  JSON_parse text = Normal data ->
  get data "reconstructed_base64" = None ->
  let r := Home.FetchSettles (Home.Response status text) in
  (Home.requests_pending s <> 0%nat ->
   Home.error (Home.step s r) = Home.error s /\
   Home.resultImg (Home.step s r) = Home.resultImg s) /\
  Home.error (Home.step (Home.analyze blob s) r) = None /\
  Home.resultImg (Home.step (Home.analyze blob s) r) = None /\
  Home.busy (Home.step (Home.analyze blob s) r) = false.
Proof.
  intros Hok Hj Hg r.
  assert (forall t : Home.session,
             Home.error (Home.analyze_resume (Home.Response status text) t) = Home.error t /\
             Home.resultImg (Home.analyze_resume (Home.Response status text) t)
             = Home.resultImg t /\
             Home.busy (Home.analyze_resume (Home.Response status text) t) = false)
    as Hres.
  { intros t. unfold Home.analyze_resume, Home.response_data.
    rewrite Hok; cbn [negb]. rewrite Hj.
    unfold Home.show_reconstruction. rewrite Hg.
    destruct (log_analysis_keeps data (Home.fetch_settled t)) as (_ & He & Hi).
    cbn [Home.error Home.resultImg Home.busy Home.setBusy].
    rewrite He, Hi. now repeat split. }
  split.
  - intros Hp; subst r; simpl.
    destruct (Home.requests_pending s); [congruence|].
    destruct (Hres s) as (He & Hi & _). now split.
  - subst r.
    change (Home.step (Home.analyze blob s)
              (Home.FetchSettles (Home.Response status text)))
      with (Home.analyze_resume (Home.Response status text) (Home.analyze blob s)).
    destruct (Hres (Home.analyze blob s)) as (-> & -> & ->).
    now repeat split.
Qed.

Lemma missing_reconstruction_is_no_error_witness :
  let r := Home.FetchSettles
             (Home.Response 200 ("{" ++ Sample.quoted "analysis" ++ ":{}}")) in
  (Home.requests_pending overlapped <> 0%nat ->
   Home.error (Home.step overlapped r) = Home.error overlapped /\
   Home.resultImg (Home.step overlapped r) = Home.resultImg overlapped) /\
  Home.error (Home.step (Home.analyze frame overlapped) r) = None /\
  Home.resultImg (Home.step (Home.analyze frame overlapped) r) = None /\
  Home.busy (Home.step (Home.analyze frame overlapped) r) = false.
Proof.
  exact (missing_reconstruction_is_no_error overlapped frame 200
           ("{" ++ Sample.quoted "analysis" ++ ":{}}")
           (JObj [("analysis", JObj [])]) eq_refl eq_refl eq_refl).
Defined.

(** C10: an answer with a status outside 200-299 puts exactly
    ["Server error: <status>"] on display, and the text of the answer plays
    no part: any two bodies under that status lead to the same session. *)
Theorem server_error_shows_status_only `{Platform}
        (s : Home.session) (status : Z) (text : string) :
  Home.ok status = false ->
  Home.requests_pending s <> 0%nat ->
  Home.error (Home.step s (Home.FetchSettles (Home.Response status text))) =
  Some ("Server error: " ++ decimal status) /\
  forall text' : string,
    Home.step s (Home.FetchSettles (Home.Response status text')) =
    Home.step s (Home.FetchSettles (Home.Response status text)).
Proof.
  intros Hok Hp; simpl.
  destruct (Home.requests_pending s) eqn:Hn; [congruence|].
  unfold Home.analyze_resume, Home.response_data.
  rewrite Hok; simpl.
  split; reflexivity.
Qed.

Lemma server_error_shows_status_only_witness :
  let s := Home.analyze photo Home.initial in
  let body := "{" ++ Sample.quoted "error" ++ ":" ++ Sample.quoted "Python failed"
                  ++ "," ++ Sample.quoted "details" ++ ":"
                  ++ Sample.quoted "cannot decode image" ++ "}" in
  Home.error (Home.step s (Home.FetchSettles (Home.Response 500 body))) =
  Some "Server error: 500" /\
  forall text' : string,
    Home.step s (Home.FetchSettles (Home.Response 500 text')) =
    Home.step s (Home.FetchSettles (Home.Response 500 body)).
Proof.
  intros s body.
  apply (server_error_shows_status_only s 500 body); [reflexivity | discriminate].
Defined.

(** * Further properties of the handler *)

Section HandlerMore.
Context `{Platform}.
Import Reconstruct.

Lemma responses_of_app (es fs : list effect) :
  responses_of (es ++ fs)%list = (responses_of es ++ responses_of fs)%list.
Proof.
  induction es as [|[c a|p|st bd] es IH]; simpl; trivial.
  now rewrite IH.
Qed.

(** What the ['close'] listener answers is a 200, or a 500 with its two
    fields. *)
Lemma on_close_shape (b : buffers) (code : option Z) (st : Z) (bd : value) :
  In (st, bd) (responses_of (on_close b code)) ->
  st = 200%Z \/
  (st = 500%Z /\ exists msg details, msg <> "" /\ bd = failure_body msg details).
Proof.
  unfold on_close.
  destruct (negb (code_is_zero code)); simpl.
  - intros [[= <- <-]|[]]. right. split; trivial.
    exists "Python failed", (err b). split; [discriminate | reflexivity].
  - destruct (JSON_parse (out b)) as [v|e]; simpl.
    + intros [[= <- <-]|[]]. now left.
    + intros [[= <- <-]|[]]. right. split; trivial.
      exists "Invalid JSON from Python", (out b). split; [discriminate | reflexivity].
Qed.

Lemma deliver_shape (evs : list child_event) (b : buffers) (st : Z) (bd : value) :
  In (st, bd) (responses_of (effects (deliver evs b))) ->
  st = 200%Z \/
  (st = 500%Z /\ exists msg details, msg <> "" /\ bd = failure_body msg details).
Proof.
  revert b; induction evs as [|ev evs IH]; intros b; simpl; [intros []|].
  destruct ev as [d|d|c|c|e]; simpl; try apply IH; [|intros []].
  rewrite responses_of_app. intros Hin. apply in_app_or in Hin as [Hin|Hin].
  - now apply on_close_shape in Hin.
  - now apply IH in Hin.
Qed.

(** Events other than ['close'] and ['error'] leave the request as it is. *)
Lemma deliver_quiet (evs : list child_event) (b : buffers) :
  (forall c, ~ In (Close c) evs) ->
  (forall e, ~ In (ErrorEvent e) evs) ->
  effects (deliver evs b) = [] /\ unhandled (deliver evs b) = None.
Proof.
  revert b; induction evs as [|ev evs IH]; intros b Hc He; simpl; [now split|].
  assert (forall c, ~ In (Close c) evs) as Hc' by (intros c Hin; apply (Hc c); now right).
  assert (forall e, ~ In (ErrorEvent e) evs) as He' by (intros e Hin; apply (He e); now right).
  destruct ev as [d|d|c|c|e]; simpl.
  - apply IH; trivial.
  - apply IH; trivial.
  - apply IH; trivial.
  - exfalso. apply (Hc c). now left.
  - exfalso. apply (He e). now left.
Qed.


End HandlerMore.


Lemma handler_answers_once_witness :
  let py := Reconstruct.Child
              (Reconstruct.runs [Reconstruct.OnStdout "not json"] (Some 0%Z)) in
  length (Reconstruct.responses
            (Reconstruct.handler (upload_request "/tmp/upload_1.jpg") py)) = 1%nat /\
  Reconstruct.unhandled
    (Reconstruct.handler (upload_request "/tmp/upload_1.jpg") py) = None.
Proof.
  intros py.
  apply (handler_answers_once (upload_request "/tmp/upload_1.jpg")
           [Reconstruct.OnStdout "not json"] (Some 0%Z) (Error "unused") py).
  right. reflexivity.
Defined.

(** X3: the engine is started as [python3 <script> <path>], where the path
    is the one formidable stored the upload under; this is the first thing
    the handler does, and it starts nothing else. *)
Theorem engine_gets_upload_path `{Platform}
        (req : Reconstruct.request) (file : Reconstruct.File)
        (py : Reconstruct.spawned) :
  Reconstruct.method req = "POST" ->
  Reconstruct.form_err (Reconstruct.body req) = None ->
  Reconstruct.files_image (Reconstruct.body req) = Some file ->
  exists rest,
    Reconstruct.effects (Reconstruct.handler req py) =
    Reconstruct.Spawn "python3" [script_path; Reconstruct.filepath file] :: rest /\
    filter Reconstruct.is_spawn rest = [].
Proof.
  intros Hm He Hf. unfold Reconstruct.handler, Reconstruct.parseForm.
  rewrite Hm, He, Hf; simpl.
  destruct py as [e|evs]; simpl.
  - eexists; split; reflexivity.
  - eexists; split; [reflexivity|].
    apply deliver_only_responds.
Qed.

Lemma engine_gets_upload_path_witness :
  exists rest,
    Reconstruct.effects
      (Reconstruct.handler (upload_request "/tmp/x.txt")
         (Reconstruct.Child
            (Reconstruct.runs [Reconstruct.OnStderr "cannot decode image"] (Some 1%Z)))) =
    Reconstruct.Spawn "python3" ["/app/api/reconstruct.py"; "/tmp/x.txt"] :: rest /\
    filter Reconstruct.is_spawn rest = [].
Proof.
  exact (engine_gets_upload_path (upload_request "/tmp/x.txt")
           {| Reconstruct.filepath := "/tmp/x.txt" |}
           (Reconstruct.Child
              (Reconstruct.runs [Reconstruct.OnStderr "cannot decode image"] (Some 1%Z)))
           eq_refl eq_refl eq_refl).
Defined.



(** X5: the handler answers from the ['close'] listener only.  As long as
    the child has neither closed nor failed, whatever it has written, the
    request has no answer: there is no timeout. *)
Theorem no_answer_before_close `{Platform}
        (req : Reconstruct.request) (path : string)
        (evs : list Reconstruct.child_event) :
  Reconstruct.method req = "POST" ->
  Reconstruct.parseForm req = Normal path ->
  (forall c, ~ In (Reconstruct.Close c) evs) ->
  (forall e, ~ In (Reconstruct.ErrorEvent e) evs) ->
  Reconstruct.handler req (Reconstruct.Child evs) =
  {| Reconstruct.effects := [Reconstruct.Spawn "python3" [script_path; path]];
     Reconstruct.unhandled := None |}.
Proof.
  intros Hm Hp Hc He. unfold Reconstruct.handler.
  rewrite Hm, Hp; simpl.
  destruct (deliver_quiet evs {| Reconstruct.out := ""; Reconstruct.err := "" |} Hc He)
    as [-> ->].
  reflexivity.
Qed.

Lemma no_answer_before_close_witness :
  Reconstruct.handler (upload_request "/tmp/upload_1.jpg")
    (Reconstruct.Child
       [Reconstruct.StdoutData "{"; Reconstruct.StderrData "loading model";
        Reconstruct.Exit (Some 0%Z)]) =
  {| Reconstruct.effects :=
       [Reconstruct.Spawn "python3" [script_path; "/tmp/upload_1.jpg"]];
     Reconstruct.unhandled := None |}.
Proof.
  apply (no_answer_before_close (upload_request "/tmp/upload_1.jpg") "/tmp/upload_1.jpg");
    try reflexivity.
  - intros c [Hin|[Hin|[Hin|[]]]]; discriminate.
  - intros e [Hin|[Hin|[Hin|[]]]]; discriminate.
Defined.



(** X7: when formidable reports an error the upload is refused with that
    error's message, or with ['Bad request'] when it has none, even if an
    [image] file was stored; the stored file is not looked at and no engine
    is started. *)
Theorem form_error_wins `{Platform}
        (req : Reconstruct.request) (py : Reconstruct.spawned) (e : thrown) :
  Reconstruct.method req = "POST" ->
  Reconstruct.form_err (Reconstruct.body req) = Some e ->
  Reconstruct.handler req py =
  {| Reconstruct.effects :=
       [Reconstruct.Respond 400 (JObj [("error", JStr (message_or e "Bad request"))])];
     Reconstruct.unhandled := None |}.
Proof.
  intros Hm He.
  unfold Reconstruct.handler, Reconstruct.parseForm.
  now rewrite Hm, He.
Qed.

Lemma form_error_wins_witness :
  Reconstruct.handler
    {| Reconstruct.method := "POST";
       Reconstruct.body :=
         {| Reconstruct.form_err := Some (Thrown None);
            Reconstruct.files_image :=
              Some {| Reconstruct.filepath := "/tmp/upload_1.jpg" |} |} |}
    (Reconstruct.Child (Reconstruct.runs [] (Some 0%Z))) =
  {| Reconstruct.effects :=
       [Reconstruct.Respond 400 (JObj [("error", JStr "Bad request")])];
     Reconstruct.unhandled := None |}.
Proof.
  exact (form_error_wins
           {| Reconstruct.method := "POST";
              Reconstruct.body :=
                {| Reconstruct.form_err := Some (Thrown None);
                   Reconstruct.files_image :=
                     Some {| Reconstruct.filepath := "/tmp/upload_1.jpg" |} |} |}
           (Reconstruct.Child (Reconstruct.runs [] (Some 0%Z)))
           (Thrown None) eq_refl eq_refl).
Defined.

(** X8: whatever the request and whatever the child does, every answer of
    the handler has status 200, 400, 405 or 500; every answer other than
    200 carries a non-empty [error] string, and every 500 a [details]
    string as well. *)
Theorem answers_are_structured `{Platform}
        (req : Reconstruct.request) (py : Reconstruct.spawned)
        (st : Z) (bd : value) :
  In (st, bd) (Reconstruct.responses (Reconstruct.handler req py)) ->
  (st = 200 \/ st = 400 \/ st = 405 \/ st = 500)%Z /\
  (st <> 200%Z -> exists msg, msg <> "" /\ get bd "error" = Some (JStr msg)) /\
  (st = 500%Z -> exists details, get bd "details" = Some (JStr details)).
Proof.
  unfold Reconstruct.responses, Reconstruct.handler.
  destruct (negb (Reconstruct.method req =? "POST")); simpl.
  { intros [[= <- <-]|[]]. split; [auto|]. split; [|discriminate].
    intros _. exists "Method not allowed". split; [discriminate | reflexivity]. }
  destruct (Reconstruct.parseForm req) as [path|e]; simpl.
  2:{ intros [[= <- <-]|[]]. split; [auto|]. split; [|discriminate].
      intros _. exists (message_or e "Bad request").
      split; [apply message_or_nonempty; discriminate | reflexivity]. }
  destruct py as [e|evs]; simpl.
  { intros [[= <- <-]|[]]. split; [auto|]. split; [|discriminate].
    intros _. exists (message_or e "Bad request").
    split; [apply message_or_nonempty; discriminate | reflexivity]. }
  intros Hin. apply deliver_shape in Hin as [-> | (-> & msg & details & Hmsg & ->)].
  - split; [auto|]. split; [congruence | discriminate].
  - split; [auto|]. split; intros _; [exists msg | exists details]; auto.
Qed.

Lemma answers_are_structured_witness :
  (500 = 200 \/ 500 = 400 \/ 500 = 405 \/ 500 = 500)%Z /\
  (500%Z <> 200%Z ->
   exists msg, msg <> "" /\
     get (JObj [("error", JStr "Python failed"); ("details", JStr "boom")]) "error"
     = Some (JStr msg)) /\
  (500%Z = 500%Z ->
   exists details,
     get (JObj [("error", JStr "Python failed"); ("details", JStr "boom")]) "details"
     = Some (JStr details)).
Proof.
  apply (answers_are_structured (upload_request "/tmp/upload_1.jpg")
           (Reconstruct.Child
              (Reconstruct.runs [Reconstruct.OnStderr "boom"] (Some 2%Z)))).
  left. reflexivity.
Defined.

(** X9: a 200 is answered only for a POST whose upload parsed and whose
    engine closed with code zero after writing JSON; the body is then the
    value that JSON denotes. *)
Theorem success_only_from_clean_run `{Platform}
        (req : Reconstruct.request) (output : list Reconstruct.chunk)
        (code : option Z) (v : value) :
  In (200%Z, v)
     (Reconstruct.responses
        (Reconstruct.handler req (Reconstruct.Child (Reconstruct.runs output code)))) ->
  Reconstruct.method req = "POST" /\
  (exists path, Reconstruct.parseForm req = Normal path) /\
  code = Some 0%Z /\
  JSON_parse (Reconstruct.stdout_text output) = Normal v.
Proof.
  unfold Reconstruct.responses, Reconstruct.handler.
  destruct (String.eqb_spec (Reconstruct.method req) "POST") as [Hm|Hm]; simpl;
    [|intros [[=]|[]]].
  destruct (Reconstruct.parseForm req) as [path|e]; simpl; [|intros [[=]|[]]].
  rewrite deliver_runs; simpl. unfold Reconstruct.on_close; simpl.
  destruct code as [c|]; simpl; [|intros [[=]|[]]].
  destruct (Z.eqb_spec c 0) as [->|Hc]; simpl; [|intros [[=]|[]]].
  destruct (JSON_parse (Reconstruct.stdout_text output)) as [parsed|e]; simpl;
    [|intros [[=]|[]]].
  intros [[= ->]|[]]. eauto.
Qed.

Lemma success_only_from_clean_run_witness :
  Reconstruct.method (upload_request "/tmp/upload_1.jpg") = "POST" /\
  (exists path, Reconstruct.parseForm (upload_request "/tmp/upload_1.jpg") = Normal path) /\
  Some 0%Z = Some 0%Z /\
  JSON_parse (Reconstruct.stdout_text [Reconstruct.OnStdout "[1"; Reconstruct.OnStdout "2]"])
  = Normal (JArr [JNum 12%Z]).
Proof.
  apply (success_only_from_clean_run (H := Sample.platform)
           (upload_request "/tmp/upload_1.jpg")
           [Reconstruct.OnStdout "[1"; Reconstruct.OnStdout "2]"] (Some 0%Z)
           (JArr [JNum 12%Z])).
  left. reflexivity.
Defined.


(** * Further properties of the capture client *)

Section ClientMore.
Context `{Platform}.
Import Home.

(** The two optional fields of an answer each change one thing at most. *)
Lemma show_reconstruction_cases (data : value) (s : session) :
  show_reconstruction data s = s \/
  exists x, show_reconstruction data s =
            setResultImg (Some ("data:image/jpeg;base64," ++ x)) s.
Proof.
  unfold show_reconstruction.
  destruct (get data "reconstructed_base64") as [v|]; [|now left].
  destruct (truthy (Some v)); [|now left].
  right. now exists (to_string v).
Qed.

Lemma log_analysis_cases (data : value) (s : session) :
  log_analysis data s = s \/ exists a, log_analysis data s = console_log a s.
Proof.
  unfold log_analysis.
  destruct (get data "analysis") as [a|]; [|now left].
  destruct (truthy (Some a)); [|now left].
  right. now exists a.
Qed.

(** Settling a request: the request is no longer pending, [busy] is
    cleared, and nothing else moves but the error and the image. *)
Lemma analyze_resume_fields (r : fetched) (s : session) :
  streaming (analyze_resume r s) = streaming s /\
  busy (analyze_resume r s) = false /\
  cameras_pending (analyze_resume r s) = cameras_pending s /\
  snapshots_pending (analyze_resume r s) = snapshots_pending s /\
  requests_pending (analyze_resume r s) = pred (requests_pending s) /\
  sent (analyze_resume r s) = sent s.
Proof.
  unfold analyze_resume.
  destruct (response_data r) as [data|e]; [|now repeat split].
  destruct (show_reconstruction_cases data (fetch_settled s)) as [-> | [x ->]].
  - destruct (log_analysis_cases data (fetch_settled s)) as [-> | [a ->]];
      now repeat split.
  - destruct (log_analysis_cases data
                (setResultImg (Some ("data:image/jpeg;base64," ++ x))
                              (fetch_settled s))) as [-> | [a ->]];
      now repeat split.
Qed.

Lemma analyze_resume_error (r : fetched) (s : session) :
  error (analyze_resume r s) = error s \/
  exists m, m <> "" /\ error (analyze_resume r s) = Some m.
Proof.
  unfold analyze_resume.
  destruct (response_data r) as [data|e].
  - left.
    destruct (log_analysis_keeps data (show_reconstruction data (fetch_settled s)))
      as (_ & He & _).
    cbn [error setBusy]. rewrite He.
    destruct (show_reconstruction_cases data (fetch_settled s)) as [-> | [x ->]];
      reflexivity.
  - right. exists (message_or e "Failed to analyze").
    split; [apply message_or_nonempty; discriminate | reflexivity].
Qed.

Lemma analyze_resume_result (r : fetched) (s : session) :
  resultImg (analyze_resume r s) = resultImg s \/
  exists x, resultImg (analyze_resume r s) = Some ("data:image/jpeg;base64," ++ x).
Proof.
  unfold analyze_resume.
  destruct (response_data r) as [data|e]; [|now left].
  destruct (log_analysis_keeps data (show_reconstruction data (fetch_settled s)))
    as (_ & _ & Hi).
  cbn [resultImg setBusy]. rewrite Hi.
  destruct (show_reconstruction_cases data (fetch_settled s)) as [-> | [x ->]];
    [now left | right; now exists x].
Qed.

End ClientMore.

(** Case analysis on one turn of the event loop: every disabled or idle
    case leaves the session as it is; a settled request is left folded, for
    the lemmas on [analyze_resume]. *)
Ltac step_cases s ev :=
  unfold Home.step;
  destruct ev as [ | | [?f|] | ?c | [?blob|?e] | ?r ];
  [ destruct (Home.start_disabled s) eqn:?Hstart
  | destruct (Home.capture_disabled s) eqn:?Hcapture
  | | | destruct (Home.cameras_pending s) eqn:?Hcam; [|destruct c]
  | destruct (Home.snapshots_pending s) eqn:?Hsnap
  | destruct (Home.snapshots_pending s) eqn:?Hsnap
  | destruct (Home.requests_pending s) eqn:?Hreq ].

Lemma step_keeps_streaming `{Platform} (s : Home.session) (ev : Home.event) :
  Home.streaming s = true -> Home.streaming (Home.step s ev) = true.
Proof.
  intros Hs. step_cases s ev; trivial.
  rewrite (proj1 (analyze_resume_fields r s)). exact Hs.
Qed.

(** X11: once the camera streams, nothing the page does turns [streaming]
    off again; the Start button stays disabled for the rest of the
    session. *)
Theorem streaming_stays_on `{Platform} (evs : list Home.event) (s : Home.session) :
  Home.streaming s = true ->
  Home.streaming (Home.run evs s) = true /\
  Page.start_button_disabled (Page.render (Home.run evs s)) = true.
Proof.
  assert (forall evs s, Home.streaming s = true ->
                        Home.streaming (Home.run evs s) = true) as Hrun.
  { clear. intros evs. unfold Home.run.
    induction evs as [|ev evs IH]; intros s Hs; simpl; trivial.
    apply IH. now apply step_keeps_streaming. }
  intros Hs. split; [|unfold Page.render, Home.start_disabled; simpl]; now apply Hrun.
Qed.

Lemma streaming_stays_on_witness :
  let s := Home.run [Home.ClickStartCamera; Home.CameraSettles Home.Playing] Home.initial in
  let evs := [Home.ClickStartCamera; Home.CameraSettles (Home.CameraFails (Error "gone"));
              Home.ClickCapture; Home.SnapshotSettles (Throw (Thrown None))] in
  Home.streaming (Home.run evs s) = true /\
  Page.start_button_disabled (Page.render (Home.run evs s)) = true.
Proof.
  intros s evs. apply (streaming_stays_on evs s). reflexivity.
Defined.

(** X12: on every page that can be reached, [busy] is set only while a
    request is pending. *)
Theorem busy_means_request_pending `{Platform} (s : Home.session) :
  Home.reachable s -> Home.busy s = true -> Home.requests_pending s <> 0%nat.
Proof.
  induction 1 as [|s ev Hr IH]; [discriminate|].
  step_cases s ev; trivial; try discriminate.
  intros Hb. now destruct (IH Hb).
Qed.

Lemma busy_means_request_pending_witness :
  Home.requests_pending (Home.step Home.initial (Home.SelectFile (Some photo))) <> 0%nat.
Proof.
  apply busy_means_request_pending.
  - apply Home.reachable_step, Home.reachable_initial.
  - reflexivity.
Defined.

(** Running the event loop from a reachable page stays among the
    reachable pages. *)
Lemma reachable_run `{Platform} (evs : list Home.event) (s : Home.session) :
  Home.reachable s -> Home.reachable (Home.run evs s).
Proof.
  unfold Home.run. revert s.
  induction evs as [|ev evs IH]; intros s Hr; simpl; trivial.
  apply IH. now apply Home.reachable_step.
Qed.

(** X13: without a camera that plays and without a selected file the page
    sends nothing, whatever else is clicked or settles: the capture button
    stays disabled and no snapshot is ever taken. *)
Theorem nothing_sent_without_camera_or_file `{Platform} (evs : list Home.event) :
  ~ In (Home.CameraSettles Home.Playing) evs ->
  (forall f, ~ In (Home.SelectFile (Some f)) evs) ->
  Home.sent (Home.run evs Home.initial) = [] /\
  Home.snapshots_pending (Home.run evs Home.initial) = 0%nat /\
  Page.capture_button_disabled (Page.render (Home.run evs Home.initial)) = true.
Proof.
  assert (forall evs s,
             ~ In (Home.CameraSettles Home.Playing) evs ->
             (forall f, ~ In (Home.SelectFile (Some f)) evs) ->
             Home.streaming s = false /\ Home.snapshots_pending s = 0%nat /\
             Home.sent s = [] ->
             Home.streaming (Home.run evs s) = false /\
             Home.snapshots_pending (Home.run evs s) = 0%nat /\
             Home.sent (Home.run evs s) = []) as Hrun.
  { clear. intros evs. unfold Home.run.
    induction evs as [|ev evs IH]; intros s Hcam Hfile (Hs & Hp & Hn); simpl; [auto|].
    apply IH.
    - intros Hin. apply Hcam. now right.
    - intros f Hin. apply (Hfile f). now right.
    - step_cases s ev; auto.
      + unfold Home.capture_disabled in Hcapture. rewrite Hs in Hcapture. discriminate.
      + exfalso. apply (Hfile f). now left.
      + exfalso. apply Hcam. now left.
      + congruence.
      + congruence.
      + destruct (analyze_resume_fields r s) as (-> & _ & _ & -> & _ & ->). auto. }
  intros Hcam Hfile.
  destruct (Hrun evs Home.initial Hcam Hfile) as (Hs & Hp & Hn); [now repeat split|].
  repeat split; trivial.
  unfold Page.render, Home.capture_disabled; simpl. now rewrite Hs.
Qed.

Lemma nothing_sent_without_camera_or_file_witness :
  let evs := [Home.ClickCapture; Home.ClickStartCamera;
              Home.CameraSettles (Home.CameraFails (Error "Permission denied"));
              Home.ClickCapture; Home.SelectFile None;
              Home.SnapshotSettles (Normal frame)] in
  Home.sent (Home.run evs Home.initial) = [] /\
  Home.snapshots_pending (Home.run evs Home.initial) = 0%nat /\
  Page.capture_button_disabled (Page.render (Home.run evs Home.initial)) = true.
Proof.
  intros evs. apply (nothing_sent_without_camera_or_file evs).
  - intros [Hin|[Hin|[Hin|[Hin|[Hin|[Hin|[]]]]]]]; discriminate.
  - intros f [Hin|[Hin|[Hin|[Hin|[Hin|[Hin|[]]]]]]]; discriminate.
Defined.

(** X14: every request the page has sent carries its payload in the one
    field [image] under the file name [frame.jpg], a selected file
    included: the name of the file on disk is not sent. *)
Theorem uploads_are_image_frame_jpg `{Platform} (s : Home.session) (u : Home.upload) :
  Home.reachable s ->
  In u (Home.sent s) ->
  Home.field u = "image" /\ Home.filename u = "frame.jpg".
Proof.
  intros Hr; revert u. induction Hr as [|s ev Hr IH]; intros u; [intros []|].
  step_cases s ev; auto;
    try (simpl; intros Hin; apply in_app_or in Hin as [Hin|[<-|[]]]; auto).
  rewrite (proj2 (proj2 (proj2 (proj2 (proj2 (analyze_resume_fields r s)))))).
  auto.
Qed.

Lemma uploads_are_image_frame_jpg_witness :
  Home.field {| Home.field := "image"; Home.filename := "frame.jpg";
                Home.content := frame |} = "image" /\
  Home.filename {| Home.field := "image"; Home.filename := "frame.jpg";
                   Home.content := frame |} = "frame.jpg".
Proof.
  apply (uploads_are_image_frame_jpg overlapped).
  - unfold overlapped. apply reachable_run, Home.reachable_initial.
  - right. left. reflexivity.
Defined.

Lemma error_never_empty `{Platform} (s : Home.session) :
  Home.reachable s -> Home.error s <> Some "".
Proof.
  induction 1 as [|s ev Hr IH]; [discriminate|].
  step_cases s ev; trivial; try discriminate.
  - simpl. intros [= He]. revert He. apply message_or_nonempty. discriminate.
  - simpl. intros [= He]. revert He. apply message_or_nonempty. discriminate.
  - destruct (analyze_resume_error r s) as [-> | (m & Hm & ->)]; congruence.
Qed.

(** X15: whatever image the page shows is a data URL that declares JPEG
    content in base64; the page never shows anything else as the result. *)
Theorem result_is_jpeg_data_url `{Platform} (s : Home.session) (img : string) :
  Home.reachable s ->
  Home.resultImg s = Some img ->
  exists x, img = "data:image/jpeg;base64," ++ x.
Proof.
  intros Hr; revert img. induction Hr as [|s ev Hr IH]; intros img; [discriminate|].
  step_cases s ev; auto; try discriminate.
  destruct (analyze_resume_result r s) as [-> | (x & ->)]; auto.
  intros [= <-]. now exists x.
Qed.

Lemma result_is_jpeg_data_url_witness :
  exists x, "data:image/jpeg;base64,Zm9v" = "data:image/jpeg;base64," ++ x.
Proof.
  apply (result_is_jpeg_data_url after_success).
  - unfold after_success. apply reachable_run, Home.reachable_initial.
  - reflexivity.
Defined.

Lemma result_never_empty `{Platform} (s : Home.session) :
  Home.reachable s -> Home.resultImg s <> Some "".
Proof.
  induction 1 as [|s ev Hr IH]; [discriminate|].
  step_cases s ev; trivial; try discriminate.
  destruct (analyze_resume_result r s) as [-> | (x & ->)]; [trivial | discriminate].
Qed.

(** X16: on every page that can be reached the two conditional parts of
    the markup show exactly the state: the error paragraph is there when
    and only when [error] is set, with that text, and the image when and
    only when [resultImg] is set.  The truthiness tests hide nothing,
    because neither is ever the empty string. *)
Theorem render_shows_state `{Platform} (s : Home.session) :
  Home.reachable s ->
  Page.error_text (Page.render s) = Home.error s /\
  Page.image_src (Page.render s) = Home.resultImg s.
Proof.
  intros Hr. unfold Page.render; simpl. split.
  - pose proof (error_never_empty s Hr) as He.
    destruct (Home.error s) as [[|c m]|]; simpl; congruence.
  - pose proof (result_never_empty s Hr) as Hi.
    destruct (Home.resultImg s) as [[|c img]|]; simpl; congruence.
Qed.

Lemma render_shows_state_witness :
  Page.error_text (Page.render overlapped) = Home.error overlapped /\
  Page.image_src (Page.render overlapped) = Home.resultImg overlapped.
Proof.
  apply render_shows_state.
  unfold overlapped. apply reachable_run, Home.reachable_initial.
Defined.

(** X17: a 2xx answer whose body parses and has a truthy
    [reconstructed_base64] ends the attempt with that value shown as a JPEG
    data URL, no error, and [busy] cleared.  For a string the URL ends in
    the string itself. *)
Theorem success_shows_data_url `{Platform}
        (s : Home.session) (blob : Home.Blob) (status : Z) (text : string)
        (data v : value) :
  Home.ok status = true ->
  JSON_parse text = Normal data ->
  get data "reconstructed_base64" = Some v ->
  truthy (Some v) = true ->
  let s' := Home.step (Home.analyze blob s)
                      (Home.FetchSettles (Home.Response status text)) in
  Home.resultImg s' = Some ("data:image/jpeg;base64," ++ to_string v) /\
  Home.error s' = None /\
  Home.busy s' = false.
Proof.
  intros Hok Hj Hg Ht s'. subst s'.
  change (Home.step (Home.analyze blob s)
            (Home.FetchSettles (Home.Response status text)))
    with (Home.analyze_resume (Home.Response status text) (Home.analyze blob s)).
  unfold Home.analyze_resume, Home.response_data.
  rewrite Hok; cbn [negb]. rewrite Hj.
  destruct (log_analysis_keeps data
              (Home.show_reconstruction data (Home.fetch_settled (Home.analyze blob s))))
    as (_ & He & Hi).
  cbn [Home.error Home.resultImg Home.busy Home.setBusy].
  rewrite He, Hi. unfold Home.show_reconstruction. rewrite Hg, Ht.
  now repeat split.
Qed.

Lemma success_shows_data_url_witness :
  let s' := Home.step (Home.analyze frame overlapped)
              (Home.FetchSettles
                 (Home.Response 200
                    ("{" ++ Sample.quoted "reconstructed_base64" ++ ":"
                         ++ Sample.quoted "Zm9v" ++ "}"))) in
  Home.resultImg s' = Some ("data:image/jpeg;base64," ++ to_string (JStr "Zm9v")) /\
  Home.error s' = None /\
  Home.busy s' = false.
Proof.
  exact (success_shows_data_url (H := Sample.platform) overlapped frame 200
           ("{" ++ Sample.quoted "reconstructed_base64" ++ ":"
                ++ Sample.quoted "Zm9v" ++ "}")
           (JObj [("reconstructed_base64", JStr "Zm9v")]) (JStr "Zm9v")
           eq_refl eq_refl eq_refl eq_refl).
Defined.

(** X18: an attempt that fails, because the network fails, the status is
    not 2xx or the body does not parse, ends with the message of the
    failure (or ['Failed to analyze'] when it has none) as the error, no
    image, [busy] cleared, and no further request: nothing is retried. *)
Theorem failed_attempt_shows_error `{Platform}
        (s : Home.session) (blob : Home.Blob) (r : Home.fetched) (e : thrown) :
  Home.response_data r = Throw e ->
  let s' := Home.step (Home.analyze blob s) (Home.FetchSettles r) in
  Home.error s' = Some (message_or e "Failed to analyze") /\
  Home.resultImg s' = None /\
  Home.busy s' = false /\
  Home.sent s' = Home.sent (Home.analyze blob s) /\
  Home.requests_pending s' = Home.requests_pending s.
Proof.
  intros Hr s'. subst s'.
  change (Home.step (Home.analyze blob s) (Home.FetchSettles r))
    with (Home.analyze_resume r (Home.analyze blob s)).
  unfold Home.analyze_resume. rewrite Hr. now repeat split.
Qed.

Lemma failed_attempt_shows_error_witness :
  let s' := Home.step (Home.analyze frame after_success)
              (Home.FetchSettles (Home.NetworkFailure (Error "Failed to fetch"))) in
  Home.error s' = Some (message_or (Error "Failed to fetch") "Failed to analyze") /\
  Home.resultImg s' = None /\
  Home.busy s' = false /\
  Home.sent s' = Home.sent (Home.analyze frame after_success) /\
  Home.requests_pending s' = Home.requests_pending after_success.
Proof.
  exact (failed_attempt_shows_error (H := Sample.platform) after_success frame
           (Home.NetworkFailure (Error "Failed to fetch")) (Error "Failed to fetch")
           eq_refl).
Defined.

(** X19: a [reconstructed_base64] that is present but falsy (the empty
    string, [null], [false], zero) is treated like a missing one: the
    answer sets neither the image nor the error. *)
Theorem falsy_reconstruction_is_ignored `{Platform}
        (s : Home.session) (status : Z) (text : string) (data : value) :
  Home.ok status = true ->
  JSON_parse text = Normal data ->
  truthy (get data "reconstructed_base64") = false ->
  Home.requests_pending s <> 0%nat ->
  let s' := Home.step s (Home.FetchSettles (Home.Response status text)) in
  Home.resultImg s' = Home.resultImg s /\
  Home.error s' = Home.error s /\
  Home.busy s' = false.
Proof.
  intros Hok Hj Ht Hp s'. subst s'. unfold Home.step.
  destruct (Home.requests_pending s); [congruence|].
  unfold Home.analyze_resume, Home.response_data.
  rewrite Hok; cbn [negb]. rewrite Hj.
  destruct (log_analysis_keeps data
              (Home.show_reconstruction data (Home.fetch_settled s)))
    as (_ & He & Hi).
  cbn [Home.error Home.resultImg Home.busy Home.setBusy].
  rewrite He, Hi. unfold Home.show_reconstruction.
  destruct (get data "reconstructed_base64") as [v|]; [rewrite Ht|];
    now repeat split.
Qed.

Lemma falsy_reconstruction_is_ignored_witness :
  let s' := Home.step overlapped
              (Home.FetchSettles
                 (Home.Response 200
                    ("{" ++ Sample.quoted "reconstructed_base64" ++ ":"
                         ++ Sample.quoted "" ++ "}"))) in
  Home.resultImg s' = Home.resultImg overlapped /\
  Home.error s' = Home.error overlapped /\
  Home.busy s' = false.
Proof.
  refine (falsy_reconstruction_is_ignored (H := Sample.platform) overlapped 200
            ("{" ++ Sample.quoted "reconstructed_base64" ++ ":"
                 ++ Sample.quoted "" ++ "}")
            (JObj [("reconstructed_base64", JStr "")]) eq_refl eq_refl eq_refl _).
  discriminate.
Defined.

(** X20: the capture button is gated by [busy] only from the moment the
    snapshot has been encoded.  Two clicks that both come before the first
    snapshot settles are both accepted, and each sends its own request. *)
Theorem double_capture_sends_twice `{Platform}
        (s : Home.session) (b1 b2 : Home.Blob) :
  Home.streaming s = true ->
  Home.busy s = false ->
  let s' := Home.run [Home.ClickCapture; Home.ClickCapture;
                      Home.SnapshotSettles (Normal b1);
                      Home.SnapshotSettles (Normal b2)] s in
  length (Home.sent s') = (length (Home.sent s) + 2)%nat /\
  Home.requests_pending s' = (Home.requests_pending s + 2)%nat.
Proof.
  intros Hs Hb s'. subst s'.
  assert (Home.step s Home.ClickCapture = Home.captureAndAnalyze s) as H1.
  { unfold Home.step, Home.capture_disabled. now rewrite Hs, Hb. }
  assert (Home.step (Home.captureAndAnalyze s) Home.ClickCapture =
          Home.captureAndAnalyze (Home.captureAndAnalyze s)) as H2.
  { unfold Home.step, Home.capture_disabled. cbn. now rewrite Hs, Hb. }
  unfold Home.run. cbn [fold_left]. rewrite H1, H2. cbn.
  rewrite !length_app. cbn. split; lia.
Qed.

Lemma double_capture_sends_twice_witness :
  let s := Home.run [Home.ClickStartCamera; Home.CameraSettles Home.Playing] Home.initial in
  let s' := Home.run [Home.ClickCapture; Home.ClickCapture;
                      Home.SnapshotSettles (Normal frame);
                      Home.SnapshotSettles (Normal frame)] s in
  length (Home.sent s') = (length (Home.sent s) + 2)%nat /\
  Home.requests_pending s' = (Home.requests_pending s + 2)%nat.
Proof.
  intros s. apply (double_capture_sends_twice s frame frame); reflexivity.
Defined.

(** X21: a camera start that fails shows the message of the failure (or
    ['Failed to access camera']), leaves the camera off and the Start
    button enabled for another try, and sends nothing. *)
Theorem failed_camera_start_can_be_retried `{Platform}
        (s : Home.session) (e : thrown) :
  Home.streaming s = false ->
  let s' := Home.run [Home.ClickStartCamera;
                      Home.CameraSettles (Home.CameraFails e)] s in
  Home.error s' = Some (message_or e "Failed to access camera") /\
  Home.streaming s' = false /\
  Page.start_button_disabled (Page.render s') = false /\
  Home.sent s' = Home.sent s.
Proof.
  intros Hs s'. subst s'.
  assert (Home.step s Home.ClickStartCamera = Home.startCamera s) as H1.
  { unfold Home.step, Home.start_disabled. now rewrite Hs. }
  unfold Home.run. cbn [fold_left]. rewrite H1.
  unfold Page.render, Home.start_disabled. cbn. now repeat split.
Qed.

Lemma failed_camera_start_can_be_retried_witness :
  let s' := Home.run [Home.ClickStartCamera;
                      Home.CameraSettles (Home.CameraFails (Thrown None))]
                     after_success in
  Home.error s' = Some (message_or (Thrown None) "Failed to access camera") /\
  Home.streaming s' = false /\
  Page.start_button_disabled (Page.render s') = false /\
  Home.sent s' = Home.sent after_success.
Proof.
  apply (failed_camera_start_can_be_retried after_success (Thrown None)). reflexivity.
Defined.

(** * Snapshot and teardown *)

(** X22: with both elements mounted, a snapshot leaves the canvas with the
    size of the video frame, where a dimension the video reports as zero is
    replaced on its own by 640 (width) or 480 (height); the canvas is never
    left empty.  With a 2D context the frame is painted once, over the
    whole canvas. *)
Theorem snapshot_sizes_canvas
        (video : Page.video_element) (canvas : Page.canvas_element)
        (encoded : option string) :
  exists sized,
    fst (Page.snapshotBlob (Some video) (Some canvas) encoded) = Some sized /\
    Page.width sized <> 0%N /\ Page.height sized <> 0%N /\
    Page.width sized =
      (if (Page.videoWidth video =? 0)%N then 640%N else Page.videoWidth video) /\
    Page.height sized =
      (if (Page.videoHeight video =? 0)%N then 480%N else Page.videoHeight video) /\
    (Page.context2d canvas = true ->
     Page.painted sized = [(0, 0, Page.width sized, Page.height sized)%N]).
Proof.
  unfold Page.snapshotBlob, Page.or_default.
  destruct (Page.context2d canvas) eqn:Hctx; simpl.
  - destruct encoded as [jpeg|]; simpl; eexists; (split; [reflexivity|]); simpl;
      (repeat split; trivial);
      try (destruct (N.eqb_spec (Page.videoWidth video) 0); [discriminate | trivial]);
      try (destruct (N.eqb_spec (Page.videoHeight video) 0); [discriminate | trivial]).
  - eexists; (split; [reflexivity|]); simpl;
      (repeat split; trivial; try discriminate);
      try (destruct (N.eqb_spec (Page.videoWidth video) 0); [discriminate | trivial]);
      try (destruct (N.eqb_spec (Page.videoHeight video) 0); [discriminate | trivial]).
Qed.

(** X23: a snapshot yields a blob exactly when the video element, the
    canvas, its 2D context and the encoded bytes are all there; the blob
    then holds those bytes and is typed [image/jpeg]. *)
Theorem snapshot_succeeds_iff
        (videoRef : option Page.video_element)
        (canvasRef : option Page.canvas_element)
        (encoded : option string) (blob : Home.Blob) :
  snd (Page.snapshotBlob videoRef canvasRef encoded) = Normal blob <->
  exists video canvas jpeg,
    videoRef = Some video /\ canvasRef = Some canvas /\
    Page.context2d canvas = true /\ encoded = Some jpeg /\
    blob = {| Home.bytes := jpeg; Home.mime := "image/jpeg" |}.
Proof.
  unfold Page.snapshotBlob. split.
  - destruct videoRef as [video|]; [|destruct canvasRef; discriminate].
    destruct canvasRef as [canvas|]; [|discriminate].
    destruct (Page.context2d canvas) eqn:Hctx; simpl; [|discriminate].
    destruct encoded as [jpeg|]; simpl; [|discriminate].
    intros [= <-]. exists video, canvas, jpeg. now repeat split.
  - intros (video & canvas & jpeg & -> & -> & Hctx & -> & ->).
    now rewrite Hctx.
Qed.

(** X24: every way a snapshot can fail (no video element, no canvas, no 2D
    context, nothing encoded) ends the capture with ['Capture failed'] on
    display, because the rejection is a plain string; no request is sent
    and neither [busy] nor the image changes. *)
Theorem snapshot_failure_shows_capture_failed `{Platform}
        (videoRef : option Page.video_element)
        (canvasRef : option Page.canvas_element)
        (encoded : option string) (e : thrown) (s : Home.session) :
  snd (Page.snapshotBlob videoRef canvasRef encoded) = Throw e ->
  Home.snapshots_pending s <> 0%nat ->
  let s' := Home.step s (Home.SnapshotSettles (Throw e)) in
  Home.error s' = Some "Capture failed" /\
  Home.sent s' = Home.sent s /\
  Home.busy s' = Home.busy s /\
  Home.resultImg s' = Home.resultImg s.
Proof.
  intros Hsnap Hp s'. subst s'.
  assert (e = Thrown None) as ->.
  { revert Hsnap. unfold Page.snapshotBlob, Page.reject_string.
    destruct videoRef as [video|]; [|destruct canvasRef; now intros [= <-]].
    destruct canvasRef as [canvas|]; [|now intros [= <-]].
    destruct (Page.context2d canvas); simpl; [|now intros [= <-]].
    destruct encoded; simpl; [discriminate | now intros [= <-]]. }
  unfold Home.step.
  destruct (Home.snapshots_pending s); [congruence|].
  now repeat split.
Qed.

Lemma snapshot_failure_shows_capture_failed_witness :
  let s := Home.run [Home.ClickStartCamera; Home.CameraSettles Home.Playing;
                     Home.ClickCapture] Home.initial in
  let s' := Home.step s (Home.SnapshotSettles (Throw (Thrown None))) in
  Home.error s' = Some "Capture failed" /\
  Home.sent s' = Home.sent s /\
  Home.busy s' = Home.busy s /\
  Home.resultImg s' = Home.resultImg s.
Proof.
  intros s.
  refine (snapshot_failure_shows_capture_failed (H := Sample.platform)
            (Some {| Page.videoWidth := 0; Page.videoHeight := 0;
                     Page.srcObject := None |})
            (Some {| Page.width := 300; Page.height := 150;
                     Page.context2d := false; Page.painted := [] |})
            (Some "JFIF") (Thrown None) s eq_refl _).
  discriminate.
Defined.


(** X26: tearing down twice is tearing down once. *)
Theorem cleanup_idempotent (videoRef : option Page.video_element) :
  Page.cleanup (Page.cleanup videoRef) = Page.cleanup videoRef.
Proof.
  destruct videoRef as [[w h [tracks|]]|]; simpl; trivial.
  rewrite map_map. reflexivity.
Qed.
